(** * config.py: the Snowflake connection properties

    The repository is one Python module, [config.py], whose body is a single
    assignment of a dict display to the global name [snowflake_conn_prop],
    followed by comments.  This development embeds that module body in a
    small model of the Python run time (values, insertion-ordered dicts, a
    heap of mutable objects, module namespaces, the import cache) and proves
    the properties of the specification about it. *)

From Stdlib Require Import ZArith.
From stdpp Require Import gmap strings list.

Open Scope string_scope.
Open Scope list_scope.

(** ** The fragment of the Python run time the module uses *)

Module Py.

(** Heap addresses of mutable objects. *)
Definition loc := nat.

(** Python values: immutable scalars are values themselves, a dict is a
    reference into the heap, so that two names bound to one dict alias. *)
Inductive value : Type :=
  | VNone
  | VInt (n : Z)
  | VStr (s : string)
  | VRef (l : loc).

#[global] Instance value_eq_dec : EqDecision value.
Proof. solve_decision. Defined.

#[global] Instance value_countable : Countable value.
Proof.
  refine (inj_countable'
    (λ v, match v with
          | VNone => inl ()
          | VInt n => inr (inl n)
          | VStr s => inr (inr (inl s))
          | VRef l => inr (inr (inr l))
          end)
    (λ x, match x with
          | inl _ => VNone
          | inr (inl n) => VInt n
          | inr (inr (inl s)) => VStr s
          | inr (inr (inr l)) => VRef l
          end) _).
  by intros [].
Defined.

(** [type(v)].  The only heap objects of the model are dicts. *)
Inductive pytype : Type := TNoneType | TInt | TStr | TDict.

#[global] Instance pytype_eq_dec : EqDecision pytype.
Proof. solve_decision. Defined.

Definition type_of (v : value) : pytype :=
  match v with
  | VNone => TNoneType
  | VInt _ => TInt
  | VStr _ => TStr
  | VRef _ => TDict
  end.

(** The exceptions the modelled operations can raise. *)
Inductive exn : Type :=
  | TypeError
  | KeyError
  | ImportError.

(** A dict keeps its items in insertion order. *)
Abbreviation items := (list (value * value)).

Inductive pyobj : Type :=
  | ODict (d : items).

(** [hash(k)] raises [TypeError] on a dict; None, ints and strs hash. *)
Definition hashable (k : value) : bool :=
  match k with
  | VRef _ => false
  | _ => true
  end.

(** Storing under a key: a key already present keeps its position (and the
    key object first inserted) and takes the new value; a new key is
    appended.  Used for dicts and for module namespaces. *)
Fixpoint assoc_set {K V : Type} `{EqDecision K} (k : K) (v : V)
    (l : list (K * V)) : list (K * V) :=
  match l with
  | [] => [(k, v)]
  | (k', v') :: r =>
      if decide (k' = k) then (k', v) :: r else (k', v') :: assoc_set k v r
  end.

Fixpoint assoc_get {K V : Type} `{EqDecision K} (k : K)
    (l : list (K * V)) : option V :=
  match l with
  | [] => None
  | (k', v') :: r => if decide (k' = k) then Some v' else assoc_get k r
  end.

(** [d[k] = v] *)
Definition dict_setitem (d : items) (k v : value) : exn + items :=
  if hashable k then inr (assoc_set k v d) else inl TypeError.

(** [d[k]] *)
Definition dict_getitem (d : items) (k : value) : exn + value :=
  if hashable k then
    match assoc_get k d with
    | Some v => inr v
    | None => inl KeyError
    end
  else inl TypeError.

(** [list(d)] / [d.keys()], [d.values()], [d.items()], [len(d)]. *)
Definition dict_keys (d : items) : list value := d.*1.
Definition dict_values (d : items) : list value := d.*2.
Definition dict_items (d : items) : list (value * value) := d.
Definition dict_len (d : items) : nat := length d.

(** The key set of a dict. *)
Definition key_set (d : items) : gset value := list_to_set (dict_keys d).

(** A dict display [{k1: v1, ..., kn: vn}] with already evaluated keys and
    values: the pairs are stored left to right into an empty dict. *)
Fixpoint display_fill (kvs : list (value * value)) (d : items) : exn + items :=
  match kvs with
  | [] => inr d
  | (k, v) :: r =>
      match dict_setitem d k v with
      | inl e => inl e
      | inr d' => display_fill r d'
      end
  end.

(** What code may consult outside the interpreter: the environment
    variables and the files of the process. *)
Record process_env : Type := ProcessEnv {
  environ : gmap string string;
  files : gmap string string
}.

(** A module namespace ([module.__dict__]): names in binding order. *)
Abbreviation namespace := (list (string * value)).

(** The state a module body runs against. *)
Record frame : Type := Frame {
  heap : list pyobj;
  globals : namespace
}.

(** Executing code: it may read the process environment, it threads the
    frame, and it either raises or returns. *)
Definition exec (A : Type) : Type := process_env → frame → exn + (A * frame).

Definition exec_ret {A : Type} (a : A) : exec A :=
  λ _ f, inr (a, f).

Definition exec_bind {A B : Type} (m : exec A) (k : A → exec B) : exec B :=
  λ env f,
    match m env f with
    | inl e => inl e
    | inr (a, f') => k a env f'
    end.

Notation "'let!' x ':=' m 'in' k" := (exec_bind m (λ x, k))
  (at level 10, x name, m at level 100, k at level 200).

(** Evaluating a dict display allocates a new dict object. *)
Definition build_map (kvs : list (value * value)) : exec value :=
  λ _ f,
    match display_fill kvs [] with
    | inl e => inl e
    | inr d =>
        inr (VRef (length (heap f)),
             {| heap := heap f ++ [ODict d]; globals := globals f |})
    end.

(** [x = v] at module level. *)
Definition store_name (x : string) (v : value) : exec unit :=
  λ _ f, inr (tt, {| heap := heap f; globals := assoc_set x v (globals f) |}).

(** [os.environ.get(x)]: available to any module body. *)
Definition os_getenv (x : string) : exec value :=
  λ env f,
    inr (match environ env !! x with Some s => VStr s | None => VNone end, f).

(** A running interpreter: its environment, its heap and [sys.modules]. *)
Record process : Type := Process {
  penv : process_env;
  pheap : list pyobj;
  sys_modules : gmap string namespace
}.

(** The names the import system binds in a new module before its body
    runs.  Its other attributes ([__spec__], [__loader__], ...) are private
    names as well, bound to objects outside this model. *)
Definition module_dunders (name : string) : namespace :=
  [("__name__", VStr name); ("__doc__", VNone)].

(** [import name]: a module already in [sys.modules] is not executed
    again; otherwise its body runs once on a new namespace, and the module
    is cached only if the body did not raise. *)
Definition import_module (name : string) (body : exec unit) (p : process)
    : exn + process :=
  match sys_modules p !! name with
  | Some _ => inr p
  | None =>
      match body (penv p) {| heap := pheap p; globals := module_dunders name |} with
      | inl e => inl e
      | inr (_, f) =>
          inr {| penv := penv p;
                 pheap := heap f;
                 sys_modules := <[name := globals f]> (sys_modules p) |}
      end
  end.

(** [from name import attr]: the value bound to [attr], not a copy; a name
    the module does not bind raises [ImportError]. *)
Definition import_from (name : string) (body : exec unit) (attr : string)
    (p : process) : exn + (value * process) :=
  match import_module name body p with
  | inl e => inl e
  | inr p' =>
      match sys_modules p' !! name ≫= assoc_get attr with
      | Some v => inr (v, p')
      | None => inl ImportError
      end
  end.

(** The dict a value refers to, if it refers to one. *)
Definition mapping_of (p : process) (v : value) : option items :=
  match v with
  | VRef l =>
      match pheap p !! l with
      | Some (ODict d) => Some d
      | None => None
      end
  | _ => None
  end.

(** [r[k] = v] executed by code that holds the reference [r]: the dict
    the reference points to is updated in place. *)
Definition store_subscr (r k v : value) (p : process) : exn + process :=
  match r with
  | VRef l =>
      match pheap p !! l with
      | Some (ODict d) =>
          match dict_setitem d k v with
          | inl e => inl e
          | inr d' =>
              inr {| penv := penv p;
                     pheap := <[l := ODict d']> (pheap p);
                     sys_modules := sys_modules p |}
          end
      | None => inl TypeError
      end
  | _ => inl TypeError
  end.

(** Names not starting with an underscore are public. *)
Definition is_public (x : string) : bool :=
  negb (String.prefix "_" x).

Definition public_names (ns : namespace) : list string :=
  filter (λ x, is_public x = true) ns.*1.

End Py.

(** ** config.py *)

Module Config.
Import Py.

(** The module body: the dict display is evaluated and bound to
    [snowflake_conn_prop].  The comment lines after it execute nothing. *)
Definition config_py : exec unit :=
  let! d := build_map
         [ (VStr "account", VStr "");
           (VStr "user", VStr "");
           (VStr "password", VStr "");
           (VStr "role", VStr "ACCOUNTADMIN");
           (VStr "database", VStr "SCIKIT_LEARN");
           (VStr "schema", VStr "PUBLIC");
           (VStr "warehouse", VStr "LAB_SCIKIT_WH") ] in
  store_name "snowflake_conn_prop" d.

(** The one operation of the component, "read configuration":
    [from config import snowflake_conn_prop]. *)
Definition read_configuration (p : process) : exn + (value * process) :=
  import_from "config" config_py "snowflake_conn_prop" p.

(** [n] reads in a row, with the values they return. *)
Fixpoint reads (n : nat) (p : process) : exn + (list value * process) :=
  match n with
  | O => inr ([], p)
  | S n' =>
      match read_configuration p with
      | inl e => inl e
      | inr (v, p') =>
          match reads n' p' with
          | inl e => inl e
          | inr (vs, p'') => inr (v :: vs, p'')
          end
      end
  end.

(** The states of a process in which this component alone has acted on the
    module: [config] has not been imported yet, or the state follows a read
    of such a state. *)
Inductive reachable : process → Prop :=
  | reach_unloaded (p : process) :
      sys_modules p !! "config" = None → reachable p
  | reach_read (p p' : process) (v : value) :
      reachable p → read_configuration p = inr (v, p') → reachable p'.

(** A process that has imported nothing. *)
Definition fresh_process (env : process_env) : process :=
  {| penv := env; pheap := []; sys_modules := ∅ |}.

Definition empty_env : process_env :=
  {| environ := ∅; files := ∅ |}.

(** The dict [config.py] builds, as the heap holds it after the load. *)
Definition conn_prop_items : items :=
  [ (VStr "account", VStr "");
    (VStr "user", VStr "");
    (VStr "password", VStr "");
    (VStr "role", VStr "ACCOUNTADMIN");
    (VStr "database", VStr "SCIKIT_LEARN");
    (VStr "schema", VStr "PUBLIC");
    (VStr "warehouse", VStr "LAB_SCIKIT_WH") ].

(** The invariant of the reachable states. *)
Definition config_inv (p : process) : Prop :=
  sys_modules p !! "config" = None ∨
  ∃ (l : loc) (ns : namespace),
    sys_modules p !! "config" = Some ns ∧
    assoc_get "snowflake_conn_prop" ns = Some (VRef l) ∧
    pheap p !! l = Some (ODict conn_prop_items).

(** Sample inputs: an environment that offers an account, and a process
    that has already imported another module and allocated a dict. *)
Definition sample_env : process_env :=
  {| environ := {[ "SNOWFLAKE_ACCOUNT" := "xy12345" ]}; files := ∅ |}.

Definition sample_process : process :=
  {| penv := sample_env;
     pheap := [ODict [(VStr "verbose", VInt 1)]];
     sys_modules := {[ "settings" := [("__name__", VStr "settings");
                                      ("options", VRef 0)] ]} |}.

End Config.

Import Py Config.

(** ** Facts about the run-time model *)

Section AssocFacts.
Context {K V : Type} `{EqDecision K}.

Lemma assoc_get_set_eq (k : K) (v : V) (l : list (K * V)) :
  assoc_get k (assoc_set k v l) = Some v.
Proof.
  induction l as [|[k' v'] r IH]; simpl.
  - by rewrite decide_True.
  - destruct (decide (k' = k)) as [->|Hne]; simpl.
    + by rewrite decide_True.
    + by rewrite decide_False.
Qed.

Lemma assoc_get_set_ne (k x : K) (v : V) (l : list (K * V)) :
  x ≠ k → assoc_get x (assoc_set k v l) = assoc_get x l.
Proof.
  intros Hx. induction l as [|[k' v'] r IH]; simpl.
  - rewrite decide_False; [done | congruence].
  - destruct (decide (k' = k)) as [->|Hne]; simpl.
    + rewrite !decide_False; [done | congruence | congruence].
    + by rewrite IH.
Qed.

(** Storing never drops a key and never reorders the keys already there. *)
Lemma assoc_set_keys (k : K) (v : V) (l : list (K * V)) :
  (assoc_set k v l).*1 =
  if decide (k ∈ l.*1) then l.*1 else l.*1 ++ [k].
Proof.
  induction l as [|[k' v'] r IH]; csimpl.
  - done.
  - destruct (decide (k' = k)) as [->|Hne]; csimpl.
    + rewrite decide_True; [done | by left].
    + rewrite IH. destruct (decide (k ∈ r.*1)) as [Hin|Hnin].
      * rewrite decide_True; [done | by right].
      * rewrite decide_False; [done |].
        intros Hc. apply elem_of_cons in Hc as [?|?]; congruence.
Qed.
End AssocFacts.

(** Running the module body on any frame. *)
Lemma config_py_run (env : process_env) (f : frame) :
  config_py env f =
  inr (tt, {| heap := heap f ++ [ODict conn_prop_items];
              globals := assoc_set "snowflake_conn_prop"
                           (VRef (length (heap f))) (globals f) |}).
Proof. reflexivity. Qed.

(** The object a build allocates sits at the old end of the heap. *)
Lemma lookup_alloc (h : list pyobj) (o : pyobj) :
  (h ++ [o]) !! length h = Some o.
Proof. by rewrite lookup_app_r, Nat.sub_diag. Qed.

(** A second import of the same module finds the cache, whatever the body. *)
Lemma import_from_stable (name attr : string) (body : exec unit)
    (p p' : process) (v : value) :
  import_from name body attr p = inr (v, p') →
  import_from name body attr p' = inr (v, p').
Proof.
  unfold import_from, import_module.
  destruct (sys_modules p !! name) as [ns|] eqn:Hm.
  - rewrite Hm. simpl.
    destruct (assoc_get attr ns) as [v0|] eqn:Ha; [|discriminate].
    intros [= <- <-]. rewrite !Hm. simpl. by rewrite Ha.
  - destruct (body _ _) as [e|[[] f]]; [discriminate|].
    simpl. rewrite lookup_insert_eq. simpl.
    destruct (assoc_get attr (globals f)) as [v0|] eqn:Ha; [|discriminate].
    intros [= <- <-]. simpl. repeat (rewrite lookup_insert_eq; simpl).
    by rewrite Ha.
Qed.

(** The first read loads the module. *)
Lemma read_unloaded (p : process) :
  sys_modules p !! "config" = None →
  read_configuration p =
  inr (VRef (length (pheap p)),
       {| penv := penv p;
          pheap := pheap p ++ [ODict conn_prop_items];
          sys_modules :=
            <["config" := module_dunders "config" ++
                          [("snowflake_conn_prop", VRef (length (pheap p)))]]>
              (sys_modules p) |}).
Proof.
  intros Hm. unfold read_configuration, import_from, import_module.
  rewrite Hm, config_py_run. simpl. by rewrite lookup_insert_eq.
Qed.

(** A later read returns what the name is bound to and changes nothing. *)
Lemma read_loaded (p : process) (ns : namespace) (v : value) :
  sys_modules p !! "config" = Some ns →
  assoc_get "snowflake_conn_prop" ns = Some v →
  read_configuration p = inr (v, p).
Proof.
  intros Hm Ha. unfold read_configuration, import_from, import_module.
  rewrite !Hm. simpl. by rewrite Ha.
Qed.

(** What a read returns is what the cached module binds the name to. *)
Lemma read_bound (p p1 : process) (v : value) :
  read_configuration p = inr (v, p1) →
  ∃ ns : namespace,
    sys_modules p1 !! "config" = Some ns ∧
    assoc_get "snowflake_conn_prop" ns = Some v.
Proof.
  intros Hr. destruct (sys_modules p !! "config") as [ns|] eqn:Hm.
  - unfold read_configuration, import_from, import_module in Hr.
    rewrite !Hm in Hr. simpl in Hr.
    destruct (assoc_get _ ns) as [v0|] eqn:Ha; [|discriminate].
    injection Hr as <- <-. by exists ns.
  - rewrite (read_unloaded p Hm) in Hr. injection Hr as <- <-. simpl.
    eexists. by rewrite lookup_insert_eq.
Qed.

Lemma config_inv_read (p p' : process) (v : value) :
  config_inv p → read_configuration p = inr (v, p') → config_inv p'.
Proof.
  intros [Hm|(l & ns & Hm & Ha & Hl)] Hr.
  - rewrite (read_unloaded p Hm) in Hr. injection Hr as <- <-.
    right. eexists _, _. simpl. rewrite lookup_insert_eq.
    split; [done|]. split; [reflexivity|]. apply lookup_alloc.
  - rewrite (read_loaded p ns _ Hm Ha) in Hr. injection Hr as <- <-.
    right. by exists l, ns.
Qed.

Lemma reachable_inv (p : process) : reachable p → config_inv p.
Proof.
  induction 1 as [p Hm|p p' v _ IH Hr].
  - by left.
  - by eapply config_inv_read.
Qed.

(** In a reachable state a read succeeds and yields the dict of the file. *)
Lemma reachable_read (p : process) :
  reachable p →
  ∃ (l : loc) (p' : process),
    read_configuration p = inr (VRef l, p') ∧
    mapping_of p' (VRef l) = Some conn_prop_items.
Proof.
  intros Hp. destruct (reachable_inv p Hp) as [Hm|(l & ns & Hm & Ha & Hl)].
  - eexists _, _. split; [by apply read_unloaded|].
    simpl. by rewrite lookup_alloc.
  - exists l, p. split; [by eapply read_loaded|]. simpl. by rewrite Hl.
Qed.

Lemma reads_stable (p : process) (v : value) (n : nat) :
  read_configuration p = inr (v, p) → reads n p = inr (replicate n v, p).
Proof.
  intros Hr. induction n as [|n IH]; simpl; [done|]. by rewrite Hr, IH.
Qed.

(** What a read leaves alone: the environment, every object already on
    the heap, and every other module. *)
Lemma read_frame (p p1 : process) (v : value) :
  read_configuration p = inr (v, p1) →
  penv p1 = penv p ∧
  (∀ (l : loc) (o : pyobj), pheap p !! l = Some o → pheap p1 !! l = Some o) ∧
  (∀ m : string, m ≠ "config" → sys_modules p1 !! m = sys_modules p !! m).
Proof.
  intros Hr. destruct (sys_modules p !! "config") as [ns|] eqn:Hm.
  - unfold read_configuration, import_from, import_module in Hr.
    rewrite !Hm in Hr. simpl in Hr.
    destruct (assoc_get _ ns); [|discriminate].
    by injection Hr as <- <-.
  - rewrite (read_unloaded p Hm) in Hr. injection Hr as <- <-. simpl.
    split; [done|]. split.
    + intros l o Hl. by apply lookup_app_l_Some.
    + intros m Hne. by rewrite lookup_insert_ne.
Qed.

(** ** Sanity checks of the model *)

(** A later duplicate key overwrites the value and keeps the first position. *)
Example display_fill_duplicate :
  display_fill [(VStr "a", VInt 1); (VStr "b", VInt 2); (VStr "a", VInt 3)] []
  = inr [(VStr "a", VInt 3); (VStr "b", VInt 2)].
Proof. reflexivity. Qed.

(** A dict display can raise: a dict is not a valid key. *)
Example build_map_unhashable_key :
  build_map [(VRef 0, VNone)] empty_env {| heap := []; globals := [] |}
  = inl TypeError.
Proof. reflexivity. Qed.

(** Code in this model can observe the environment; [config.py] does not. *)
Example os_getenv_observes_environment :
  os_getenv "SNOWFLAKE_ACCOUNT" sample_env {| heap := []; globals := [] |} ≠
  os_getenv "SNOWFLAKE_ACCOUNT" empty_env {| heap := []; globals := [] |}.
Proof. discriminate. Qed.

Example read_sample_example :
  ∃ p', read_configuration sample_process = inr (VRef 1, p') ∧
        sys_modules p' !! "settings" = sys_modules sample_process !! "settings" ∧
        pheap p' !! 0 = Some (ODict [(VStr "verbose", VInt 1)]).
Proof. eexists. split; [reflexivity|]. split; reflexivity. Qed.

(** ** The properties of the specification *)

(** C1: reading the unmodified configuration returns exactly the mapping
    account "", user "", password "", role "ACCOUNTADMIN", database
    "SCIKIT_LEARN", schema "PUBLIC", warehouse "LAB_SCIKIT_WH": in every
    state where only this component has acted on the module, the read
    succeeds, the dict it refers to is that list of items, and subscripting
    it by each key gives the listed value. *)
Theorem read_returns_default_mapping (p : process) :
  reachable p →
  ∃ (l : loc) (p' : process) (d : items),
    read_configuration p = inr (VRef l, p') ∧
    mapping_of p' (VRef l) = Some d ∧
    d = [ (VStr "account", VStr "");
          (VStr "user", VStr "");
          (VStr "password", VStr "");
          (VStr "role", VStr "ACCOUNTADMIN");
          (VStr "database", VStr "SCIKIT_LEARN");
          (VStr "schema", VStr "PUBLIC");
          (VStr "warehouse", VStr "LAB_SCIKIT_WH") ] ∧
    dict_getitem d (VStr "account") = inr (VStr "") ∧
    dict_getitem d (VStr "user") = inr (VStr "") ∧
    dict_getitem d (VStr "password") = inr (VStr "") ∧
    dict_getitem d (VStr "role") = inr (VStr "ACCOUNTADMIN") ∧
    dict_getitem d (VStr "database") = inr (VStr "SCIKIT_LEARN") ∧
    dict_getitem d (VStr "schema") = inr (VStr "PUBLIC") ∧
    dict_getitem d (VStr "warehouse") = inr (VStr "LAB_SCIKIT_WH").
Proof.
  intros Hp. destruct (reachable_read p Hp) as (l & p' & Hr & Hd).
  exists l, p', conn_prop_items. repeat split; assumption || reflexivity.
Qed.

Lemma read_returns_default_mapping_witness :
  ∃ (l : loc) (p' : process) (d : items),
    read_configuration sample_process = inr (VRef l, p') ∧
    mapping_of p' (VRef l) = Some d ∧
    d = [ (VStr "account", VStr "");
          (VStr "user", VStr "");
          (VStr "password", VStr "");
          (VStr "role", VStr "ACCOUNTADMIN");
          (VStr "database", VStr "SCIKIT_LEARN");
          (VStr "schema", VStr "PUBLIC");
          (VStr "warehouse", VStr "LAB_SCIKIT_WH") ] ∧
    dict_getitem d (VStr "account") = inr (VStr "") ∧
    dict_getitem d (VStr "user") = inr (VStr "") ∧
    dict_getitem d (VStr "password") = inr (VStr "") ∧
    dict_getitem d (VStr "role") = inr (VStr "ACCOUNTADMIN") ∧
    dict_getitem d (VStr "database") = inr (VStr "SCIKIT_LEARN") ∧
    dict_getitem d (VStr "schema") = inr (VStr "PUBLIC") ∧
    dict_getitem d (VStr "warehouse") = inr (VStr "LAB_SCIKIT_WH").
Proof.
  apply (read_returns_default_mapping sample_process).
  apply reach_unloaded. reflexivity.
Defined.

(** C2: at every read the key set of the configuration is exactly
    account, user, password, role, database, schema, warehouse, with no
    key twice and seven items in all; the state after the read is again a
    state of the component, so the key set is an invariant of every
    sequence of reads from the load onward. *)
Theorem key_set_invariant (p : process) :
  reachable p →
  ∃ (l : loc) (p' : process) (d : items),
    read_configuration p = inr (VRef l, p') ∧
    reachable p' ∧
    mapping_of p' (VRef l) = Some d ∧
    key_set d = {[ VStr "account"; VStr "user"; VStr "password"; VStr "role";
                   VStr "database"; VStr "schema"; VStr "warehouse" ]} ∧
    NoDup (dict_keys d) ∧
    dict_len d = 7.
Proof.
  intros Hp. destruct (reachable_read p Hp) as (l & p' & Hr & Hd).
  exists l, p', conn_prop_items.
  split; [done|]. split; [by eapply reach_read|]. split; [done|].
  split; [|split; [|reflexivity]].
  - unfold key_set, dict_keys, conn_prop_items. simpl. set_solver.
  - unfold dict_keys, conn_prop_items. simpl.
    apply (bool_decide_unpack _). by vm_compute.
Qed.

Lemma key_set_invariant_witness :
  ∃ (l : loc) (p' : process) (d : items),
    read_configuration (fresh_process sample_env) = inr (VRef l, p') ∧
    reachable p' ∧
    mapping_of p' (VRef l) = Some d ∧
    key_set d = {[ VStr "account"; VStr "user"; VStr "password"; VStr "role";
                   VStr "database"; VStr "schema"; VStr "warehouse" ]} ∧
    NoDup (dict_keys d) ∧
    dict_len d = 7.
Proof.
  apply (key_set_invariant (fresh_process sample_env)).
  apply reach_unloaded. reflexivity.
Defined.

(** C3: every value of the configuration mapping is of type str, for each
    of the seven keys: in every state where only this component has acted
    on the module, subscripting the mapping read by account, user,
    password, role, database, schema or warehouse returns a value, and its
    type is str; the mapping holds no value of another type (and every key
    is a str too). *)
Theorem values_are_strings (p : process) :
  reachable p →
  ∃ (l : loc) (p' : process) (d : items),
    read_configuration p = inr (VRef l, p') ∧
    mapping_of p' (VRef l) = Some d ∧
    (∀ k : value,
       k ∈ [ VStr "account"; VStr "user"; VStr "password"; VStr "role";
             VStr "database"; VStr "schema"; VStr "warehouse" ] →
       ∃ v : value, dict_getitem d k = inr v ∧ type_of v = TStr) ∧
    Forall (λ v, type_of v = TStr) (dict_values d) ∧
    Forall (λ k, type_of k = TStr) (dict_keys d).
Proof.
  intros Hp. destruct (reachable_read p Hp) as (l & p' & Hr & Hd).
  exists l, p', conn_prop_items. split; [done|]. split; [done|].
  split; [|split].
  - intros k Hk.
    repeat (apply elem_of_cons in Hk as [->|Hk];
            [eexists; split; reflexivity|]).
    by apply elem_of_nil in Hk.
  - unfold dict_values, conn_prop_items. simpl. by repeat constructor.
  - unfold dict_keys, conn_prop_items. simpl. by repeat constructor.
Qed.

Lemma values_are_strings_witness :
  ∃ (l : loc) (p' : process) (d : items),
    read_configuration sample_process = inr (VRef l, p') ∧
    mapping_of p' (VRef l) = Some d ∧
    (∀ k : value,
       k ∈ [ VStr "account"; VStr "user"; VStr "password"; VStr "role";
             VStr "database"; VStr "schema"; VStr "warehouse" ] →
       ∃ v : value, dict_getitem d k = inr v ∧ type_of v = TStr) ∧
    Forall (λ v, type_of v = TStr) (dict_values d) ∧
    Forall (λ k, type_of k = TStr) (dict_keys d).
Proof.
  apply (values_are_strings sample_process).
  apply reach_unloaded. reflexivity.
Defined.

(** C4: the component has no mutating operation and no side effect.  A
    read leaves the environment, every object already on the heap and
    every other module as they were; the mapping is created by the first
    read (the module load) only, and after it any number of reads returns
    the same reference and leaves the whole process state, hence the
    mapping, unchanged. *)
Theorem reads_leave_mapping_unchanged (p p1 : process) (v : value) :
  read_configuration p = inr (v, p1) →
  penv p1 = penv p ∧
  (∀ (l : loc) (o : pyobj), pheap p !! l = Some o → pheap p1 !! l = Some o) ∧
  (∀ m : string, m ≠ "config" → sys_modules p1 !! m = sys_modules p !! m) ∧
  (∀ n : nat, reads n p1 = inr (replicate n v, p1)) ∧
  (∀ (n : nat) (vs : list value) (p2 : process),
      reads n p1 = inr (vs, p2) → mapping_of p2 v = mapping_of p1 v).
Proof.
  intros Hr. destruct (read_frame p p1 v Hr) as (He & Hh & Hm).
  assert (Hn : ∀ n : nat, reads n p1 = inr (replicate n v, p1)).
  { intros n. apply reads_stable. by eapply import_from_stable. }
  repeat split; try done.
  intros n vs p2 Hrs. rewrite Hn in Hrs. by injection Hrs as _ <-.
Qed.

Lemma reads_leave_mapping_unchanged_witness :
  ∃ p1 : process,
    read_configuration sample_process = inr (VRef 1, p1) ∧
    pheap p1 !! 0 = Some (ODict [(VStr "verbose", VInt 1)]) ∧
    reads 3 p1 = inr ([VRef 1; VRef 1; VRef 1], p1).
Proof.
  eexists. split; [reflexivity|].
  destruct (reads_leave_mapping_unchanged sample_process _ (VRef 1) eq_refl)
    as (_ & Hh & _ & Hn & _).
  split; [by apply Hh | apply (Hn 3)].
Defined.

(** C5: the read is idempotent: a second read in the same process returns
    the same reference as the first, leaves the state where the first left
    it, and the two results are equal as mappings. *)
Theorem read_idempotent (p p1 p2 : process) (v1 v2 : value) :
  read_configuration p = inr (v1, p1) →
  read_configuration p1 = inr (v2, p2) →
  v2 = v1 ∧ p2 = p1 ∧ mapping_of p2 v2 = mapping_of p1 v1.
Proof.
  intros H1 H2.
  apply (import_from_stable "config" "snowflake_conn_prop" config_py) in H1.
  unfold read_configuration in H2. rewrite H1 in H2.
  by injection H2 as <- <-.
Qed.

Lemma read_idempotent_witness :
  ∃ (p1 p2 : process) (v2 : value),
    read_configuration sample_process = inr (VRef 1, p1) ∧
    read_configuration p1 = inr (v2, p2) ∧
    v2 = VRef 1 ∧ p2 = p1 ∧ mapping_of p2 v2 = mapping_of p1 (VRef 1).
Proof.
  eexists _, _, _. split; [reflexivity|]. split; [reflexivity|].
  eapply (read_idempotent sample_process); reflexivity.
Defined.

(** C6: the read never fails and validates nothing.  In every state
    where only this component has acted on the module, at the first read
    and at every later one, the read returns without raising, and the
    mapping it returns holds the blank account, user and password of the
    file as they are.  Nor is any other content checked: whatever items the
    module's dict is made to hold afterwards (blank, missing or ill-typed
    values included), the read still returns without raising, and returns
    that very content. *)
Theorem read_never_fails_and_validates_nothing (p : process) :
  reachable p →
  ∃ (l : loc) (p1 : process) (d : items),
    read_configuration p = inr (VRef l, p1) ∧
    mapping_of p1 (VRef l) = Some d ∧
    dict_getitem d (VStr "account") = inr (VStr "") ∧
    dict_getitem d (VStr "user") = inr (VStr "") ∧
    dict_getitem d (VStr "password") = inr (VStr "") ∧
    ∀ d' : items,
      read_configuration
        {| penv := penv p1;
           pheap := <[l := ODict d']> (pheap p1);
           sys_modules := sys_modules p1 |}
      = inr (VRef l,
             {| penv := penv p1;
                pheap := <[l := ODict d']> (pheap p1);
                sys_modules := sys_modules p1 |}) ∧
      mapping_of
        {| penv := penv p1;
           pheap := <[l := ODict d']> (pheap p1);
           sys_modules := sys_modules p1 |} (VRef l)
      = Some d'.
Proof.
  intros Hp. destruct (reachable_read p Hp) as (l & p1 & Hr & Hd).
  destruct (read_bound p p1 (VRef l) Hr) as (ns & Hm & Ha).
  exists l, p1, conn_prop_items. split; [done|]. split; [done|].
  do 3 (split; [reflexivity|]).
  intros d'. split.
  - by apply (read_loaded _ ns).
  - simpl in *. destruct (pheap p1 !! l) as [o|] eqn:Hl; [|discriminate].
    rewrite list_lookup_insert_eq; [done|]. by eapply lookup_lt_Some.
Qed.

Lemma read_never_fails_and_validates_nothing_witness :
  ∃ (l : loc) (p1 : process),
    read_configuration sample_process = inr (VRef l, p1) ∧
    read_configuration
      {| penv := penv p1;
         pheap := <[l := ODict [(VStr "account", VNone);
                                (VStr "password", VStr "")]]> (pheap p1);
         sys_modules := sys_modules p1 |}
    = inr (VRef l,
           {| penv := penv p1;
              pheap := <[l := ODict [(VStr "account", VNone);
                                     (VStr "password", VStr "")]]> (pheap p1);
              sys_modules := sys_modules p1 |}).
Proof.
  destruct (read_never_fails_and_validates_nothing sample_process)
    as (l & p1 & d & Hr & _ & _ & _ & _ & Hany).
  { apply reach_unloaded. reflexivity. }
  exists l, p1. split; [exact Hr|].
  apply (Hany [(VStr "account", VNone); (VStr "password", VStr "")]).
Defined.

(** C7: the read is deterministic and independent of the environment.
    The module body computes the same result under any two environments,
    and any two reads, in any two processes in which only this component
    has acted on the module (whatever their environment variables, files,
    heaps and other modules), succeed and return equal mappings. *)
Theorem read_independent_of_environment (p1 p2 : process) :
  reachable p1 → reachable p2 →
  (∀ f : frame, config_py (penv p1) f = config_py (penv p2) f) ∧
  ∃ (l1 l2 : loc) (q1 q2 : process) (d : items),
    read_configuration p1 = inr (VRef l1, q1) ∧
    read_configuration p2 = inr (VRef l2, q2) ∧
    mapping_of q1 (VRef l1) = Some d ∧
    mapping_of q2 (VRef l2) = Some d.
Proof.
  intros H1 H2. split.
  - intros f. by rewrite !config_py_run.
  - destruct (reachable_read p1 H1) as (l1 & q1 & Hr1 & Hd1).
    destruct (reachable_read p2 H2) as (l2 & q2 & Hr2 & Hd2).
    by exists l1, l2, q1, q2, conn_prop_items.
Qed.

Lemma read_independent_of_environment_witness :
  (∀ f : frame, config_py sample_env f = config_py empty_env f) ∧
  ∃ (l1 l2 : loc) (q1 q2 : process) (d : items),
    read_configuration sample_process = inr (VRef l1, q1) ∧
    read_configuration (fresh_process empty_env) = inr (VRef l2, q2) ∧
    mapping_of q1 (VRef l1) = Some d ∧
    mapping_of q2 (VRef l2) = Some d.
Proof.
  apply (read_independent_of_environment
           sample_process (fresh_process empty_env));
    apply reach_unloaded; reflexivity.
Defined.

(** C8: loading the module always succeeds.  On every environment and
    every frame the module body returns without raising, and what it binds
    is the same constant dict each time; importing the module in any
    process therefore succeeds as well. *)
Theorem module_load_succeeds (env : process_env) (f : frame) (p : process) :
  (∃ (f' : frame) (l : loc),
     config_py env f = inr (tt, f') ∧
     assoc_get "snowflake_conn_prop" (globals f') = Some (VRef l) ∧
     heap f' !! l = Some (ODict conn_prop_items)) ∧
  (∃ p' : process, import_module "config" config_py p = inr p').
Proof.
  split.
  - eexists _, _. split; [apply config_py_run|]. simpl.
    split; [apply assoc_get_set_eq | apply lookup_alloc].
  - unfold import_module. destruct (sys_modules p !! "config"); [by eexists|].
    rewrite config_py_run. by eexists.
Qed.

(** C9: loading the module binds the one public name
    [snowflake_conn_prop] and has no other effect: the name is bound to
    the newly allocated dict, every other name of the namespace keeps its
    binding, no name disappears or moves, the heap only grows by that one
    dict, and a module namespace as the import system prepares it ends up
    with this single public name. *)
Theorem module_load_binds_one_name (env : process_env) (f : frame) :
  ∃ f' : frame,
    config_py env f = inr (tt, f') ∧
    is_public "snowflake_conn_prop" = true ∧
    assoc_get "snowflake_conn_prop" (globals f') = Some (VRef (length (heap f))) ∧
    (∀ x : string, x ≠ "snowflake_conn_prop" →
       assoc_get x (globals f') = assoc_get x (globals f)) ∧
    (globals f').*1 =
      (if decide ("snowflake_conn_prop" ∈ (globals f).*1)
       then (globals f).*1
       else (globals f).*1 ++ ["snowflake_conn_prop"]) ∧
    heap f' = heap f ++ [ODict conn_prop_items] ∧
    (globals f = module_dunders "config" →
       public_names (globals f') = ["snowflake_conn_prop"]).
Proof.
  eexists. split; [apply config_py_run|]. simpl.
  split; [reflexivity|]. split; [apply assoc_get_set_eq|].
  split; [intros x Hx; by apply assoc_get_set_ne|].
  split; [apply assoc_set_keys|]. split; [reflexivity|].
  intros ->. reflexivity.
Qed.

Lemma module_load_binds_one_name_witness :
  ∃ f' : frame,
    config_py sample_env
      {| heap := pheap sample_process; globals := module_dunders "config" |}
    = inr (tt, f') ∧
    assoc_get "__name__" (globals f') = Some (VStr "config") ∧
    heap f' = pheap sample_process ++ [ODict conn_prop_items] ∧
    public_names (globals f') = ["snowflake_conn_prop"].
Proof.
  destruct (module_load_binds_one_name sample_env
              {| heap := pheap sample_process;
                 globals := module_dunders "config" |})
    as (f' & Hrun & _ & _ & Hother & _ & Hheap & Hpub).
  exists f'. split; [exact Hrun|]. split.
  - rewrite Hother; [reflexivity | discriminate].
  - split; [exact Hheap | apply Hpub; reflexivity].
Defined.

(** C10: every enumeration of the mapping (its keys, its items, its
    values) runs in the insertion order account, user, password, role,
    database, schema, warehouse. *)
Theorem enumeration_in_insertion_order (p : process) :
  reachable p →
  ∃ (l : loc) (p' : process) (d : items),
    read_configuration p = inr (VRef l, p') ∧
    mapping_of p' (VRef l) = Some d ∧
    dict_keys d = [ VStr "account"; VStr "user"; VStr "password"; VStr "role";
                    VStr "database"; VStr "schema"; VStr "warehouse" ] ∧
    (dict_items d).*1 = dict_keys d ∧
    dict_values d = [ VStr ""; VStr ""; VStr ""; VStr "ACCOUNTADMIN";
                      VStr "SCIKIT_LEARN"; VStr "PUBLIC"; VStr "LAB_SCIKIT_WH" ].
Proof.
  intros Hp. destruct (reachable_read p Hp) as (l & p' & Hr & Hd).
  exists l, p', conn_prop_items. by repeat split.
Qed.

Lemma enumeration_in_insertion_order_witness :
  ∃ (l : loc) (p' : process) (d : items),
    read_configuration sample_process = inr (VRef l, p') ∧
    mapping_of p' (VRef l) = Some d ∧
    dict_keys d = [ VStr "account"; VStr "user"; VStr "password"; VStr "role";
                    VStr "database"; VStr "schema"; VStr "warehouse" ] ∧
    (dict_items d).*1 = dict_keys d ∧
    dict_values d = [ VStr ""; VStr ""; VStr ""; VStr "ACCOUNTADMIN";
                      VStr "SCIKIT_LEARN"; VStr "PUBLIC"; VStr "LAB_SCIKIT_WH" ].
Proof.
  apply (enumeration_in_insertion_order sample_process).
  apply reach_unloaded. reflexivity.
Defined.

(** ** Further properties of the module *)

Section AssocMore.
Context {K V : Type} `{EqDecision K}.

Lemma assoc_get_notin (k : K) (l : list (K * V)) :
  k ∉ l.*1 → assoc_get k l = None.
Proof.
  induction l as [|[k' v'] r IH]; csimpl; [done|].
  intros Hn. apply not_elem_of_cons in Hn as [Hne Hr].
  rewrite decide_False; [by apply IH | congruence].
Qed.

Lemma assoc_get_in (k : K) (l : list (K * V)) :
  k ∈ l.*1 → ∃ v : V, assoc_get k l = Some v ∧ v ∈ l.*2.
Proof.
  induction l as [|[k' v'] r IH]; csimpl.
  - by intros ?%elem_of_nil.
  - intros Hin. destruct (decide (k' = k)) as [->|Hne].
    + exists v'. split; [done | by left].
    + apply elem_of_cons in Hin as [?|Hin]; [congruence|].
      destruct (IH Hin) as (v & Hv & Hm). exists v. split; [done | by right].
Qed.


Lemma assoc_set_set (k : K) (v w : V) (l : list (K * V)) :
  assoc_set k w (assoc_set k v l) = assoc_set k w l.
Proof.
  induction l as [|[k' v'] r IH]; simpl.
  - by rewrite decide_True.
  - destruct (decide (k' = k)) as [->|Hne]; simpl.
    + by rewrite decide_True.
    + by rewrite decide_False, IH.
Qed.
End AssocMore.


(** X1: subscripting the configuration.  In every state where only this
    component has acted on the module, subscripting the mapping read by
    one of its seven keys gives a string, by any other hashable key (a
    differently spelled or cased name, None, an int) raises KeyError, and
    by an unhashable key raises TypeError. *)
Theorem subscript_outside_keys_raises (p : process) :
  reachable p →
  ∃ (l : loc) (p' : process) (d : items),
    read_configuration p = inr (VRef l, p') ∧
    mapping_of p' (VRef l) = Some d ∧
    (∀ k : value,
       k ∈ [ VStr "account"; VStr "user"; VStr "password"; VStr "role";
             VStr "database"; VStr "schema"; VStr "warehouse" ] →
       ∃ s : string, dict_getitem d k = inr (VStr s)) ∧
    (∀ k : value,
       hashable k = true →
       k ∉ [ VStr "account"; VStr "user"; VStr "password"; VStr "role";
             VStr "database"; VStr "schema"; VStr "warehouse" ] →
       dict_getitem d k = inl KeyError) ∧
    (∀ k : value, hashable k = false → dict_getitem d k = inl TypeError).
Proof.
  intros Hp. destruct (reachable_read p Hp) as (l & p' & Hr & Hd).
  exists l, p', conn_prop_items. split; [done|]. split; [done|].
  split; [|split].
  - intros k Hk.
    repeat (apply elem_of_cons in Hk as [->|Hk]; [eexists; reflexivity|]).
    by apply elem_of_nil in Hk.
  - intros k Hh Hk. unfold dict_getitem. rewrite Hh.
    by rewrite (assoc_get_notin k conn_prop_items Hk).
  - intros k Hh. unfold dict_getitem. by rewrite Hh.
Qed.

Lemma subscript_outside_keys_raises_witness :
  ∃ (l : loc) (p' : process) (d : items),
    read_configuration sample_process = inr (VRef l, p') ∧
    mapping_of p' (VRef l) = Some d ∧
    (∃ s : string, dict_getitem d (VStr "warehouse") = inr (VStr s)) ∧
    dict_getitem d (VStr "ACCOUNT") = inl KeyError ∧
    dict_getitem d (VStr "authenticator") = inl KeyError ∧
    dict_getitem d (VRef l) = inl TypeError.
Proof.
  destruct (subscript_outside_keys_raises sample_process)
    as (l & p' & d & Hr & Hd & Hin & Hout & Hun).
  { apply reach_unloaded. reflexivity. }
  exists l, p', d. split; [exact Hr|]. split; [exact Hd|].
  split; [apply Hin; apply (bool_decide_unpack _); by vm_compute|].
  split; [apply Hout; [reflexivity | apply (bool_decide_unpack _); by vm_compute]|].
  split; [apply Hout; [reflexivity | apply (bool_decide_unpack _); by vm_compute]
         | apply Hun; reflexivity].
Defined.

(** X2: the read hands out the module's own dict, not a copy.  When code
    holding the reference returned by a read stores into it, the next read
    in that process still succeeds, returns the same reference and leaves
    the state alone, and the mapping behind it is the stored-into one: the
    module is neither executed again nor reset to the literal values. *)
Theorem edits_through_reference_are_shared
    (p p1 p2 : process) (r k x : value) :
  read_configuration p = inr (r, p1) →
  store_subscr r k x p1 = inr p2 →
  read_configuration p2 = inr (r, p2) ∧
  ∃ d : items,
    mapping_of p1 r = Some d ∧
    mapping_of p2 r = Some (assoc_set k x d).
Proof.
  intros Hr Hs. destruct (read_bound p p1 r Hr) as (ns & Hm & Ha).
  unfold store_subscr in Hs.
  destruct r as [| | |l]; try discriminate.
  destruct (pheap p1 !! l) as [[d]|] eqn:Hl; [|discriminate].
  unfold dict_setitem in Hs. destruct (hashable k); [|discriminate].
  injection Hs as <-. split.
  - by apply (read_loaded _ ns).
  - exists d. simpl. rewrite Hl. split; [done|].
    rewrite list_lookup_insert_eq; [done|]. by eapply lookup_lt_Some.
Qed.

Lemma edits_through_reference_are_shared_witness :
  ∃ p1 p2 : process,
    read_configuration sample_process = inr (VRef 1, p1) ∧
    store_subscr (VRef 1) (VStr "account") (VStr "xy12345") p1 = inr p2 ∧
    read_configuration p2 = inr (VRef 1, p2) ∧
    ∃ d : items,
      mapping_of p1 (VRef 1) = Some d ∧
      mapping_of p2 (VRef 1) =
      Some (assoc_set (VStr "account") (VStr "xy12345") d).
Proof.
  eexists _, _. split; [reflexivity|]. split; [reflexivity|].
  eapply (edits_through_reference_are_shared sample_process); reflexivity.
Defined.

(** X3: executing the module body a second time on the namespace it has
    already run on (a reload) again succeeds; it keeps every name of the
    namespace in place, rebinds [snowflake_conn_prop] to a second, newly
    allocated dict with the literal values, and leaves the first dict on
    the heap for whoever still holds it. *)
Theorem reexecution_rebinds_fresh_dict (env : process_env) (f : frame) :
  ∃ f1 f2 : frame,
    config_py env f = inr (tt, f1) ∧
    config_py env f1 = inr (tt, f2) ∧
    (globals f2).*1 = (globals f1).*1 ∧
    assoc_get "snowflake_conn_prop" (globals f1)
      = Some (VRef (length (heap f))) ∧
    assoc_get "snowflake_conn_prop" (globals f2)
      = Some (VRef (S (length (heap f)))) ∧
    heap f2 = heap f ++ [ODict conn_prop_items; ODict conn_prop_items] ∧
    (∀ x : string, x ≠ "snowflake_conn_prop" →
       assoc_get x (globals f2) = assoc_get x (globals f)).
Proof.
  eexists _, _. split; [apply config_py_run|].
  split; [apply config_py_run|]. simpl.
  assert (Hlen : length (heap f ++ [ODict conn_prop_items])
                 = S (length (heap f))).
  { rewrite length_app. simpl. lia. }
  rewrite Hlen, assoc_set_set.
  split.
  - by rewrite !assoc_set_keys.
  - split; [apply assoc_get_set_eq|]. split; [apply assoc_get_set_eq|].
    split; [by rewrite <- app_assoc|].
    intros x Hx. by apply assoc_get_set_ne.
Qed.

Lemma reexecution_rebinds_fresh_dict_witness :
  ∃ f1 f2 : frame,
    config_py sample_env
      {| heap := pheap sample_process; globals := module_dunders "config" |}
    = inr (tt, f1) ∧
    config_py sample_env f1 = inr (tt, f2) ∧
    (globals f2).*1 = ["__name__"; "__doc__"; "snowflake_conn_prop"] ∧
    assoc_get "snowflake_conn_prop" (globals f2) = Some (VRef 2) ∧
    assoc_get "__name__" (globals f2) = Some (VStr "config").
Proof.
  destruct (reexecution_rebinds_fresh_dict sample_env
              {| heap := pheap sample_process;
                 globals := module_dunders "config" |})
    as (f1 & f2 & H1 & H2 & Hk & Hb1 & Hb2 & _ & Hother).
  exists f1, f2. split; [exact H1|]. split; [exact H2|].
  injection H1 as <-.
  split; [rewrite Hk; reflexivity|]. split; [exact Hb2|].
  rewrite Hother; [reflexivity | discriminate].
Defined.


